(** * Daily COVID-19 table of the notebook [visualizing_covid_20210125.ipynb]

    The only computation of the notebook is the pandas chain that builds
    [daily_df]:

<<
    daily_df = (
        pd.read_csv(DATA_URL, parse_dates=['date'])
            .sort_values(['state', 'date'])
            .rename(columns={'cases': 'cases_total', 'deaths': 'deaths_total'})
            .assign(
                cases_new = lambda df: df.groupby('state')['cases_total'].diff().clip(lower=0),
                deaths_new = lambda df: df.groupby('state')['deaths_total'].diff().clip(lower=0)
            )
            .query("'2020-01-01' <= date <= '2020-12-31'")
            .reset_index(drop=True)
    )
>>

    Each method of the chain is embedded as a function on frames.  A frame is
    the list of its rows in positional order.  The row labels that pandas
    threads through the chain are left out: the two assigned columns are
    computed from the very frame they are attached to, so label alignment is
    positional, and [reset_index(drop=True)] throws the labels away.

    [diff] yields [NaN] where a row has no predecessor in its group, so the
    new columns are floating point in pandas.  A cell is modelled as an
    [option Z]: [None] is [NaN], [Some v] the integer [v] (differences of
    case counts are far inside the range where float64 is exact). *)

From stdpp Require Import gmap strings list sorting.

Local Open Scope Z_scope.

(** ** Dates *)

(** [parse_dates] turns the ISO date of a row into a timestamp, an integer
    counted from 1970-01-01.  The feed has whole days only, so the unit
    here is the day. *)
Definition days_from_civil (y m d : Z) : Z :=
  let y' := if m <=? 2 then y - 1 else y in
  let era := y' `div` 400 in
  let yoe := y' - era * 400 in
  let mp := if m <=? 2 then m + 9 else m - 3 in
  let doy := (153 * mp + 2) `div` 5 + d - 1 in
  let doe := yoe * 365 + yoe `div` 4 - yoe `div` 100 + doy in
  era * 146097 + doe - 719468.

(** The two bounds of the [query] string. *)
Definition date_2020_01_01 : Z := Eval cbv in days_from_civil 2020 1 1.
Definition date_2020_12_31 : Z := Eval cbv in days_from_civil 2020 12 31.

(** ** Rows *)

(** A row as [read_csv] delivers it, with the column names of the feed. *)
Module Csv.
Record row := Row {
  date : Z;
  state : string;
  cases : Z;
  deaths : Z
}.
End Csv.

(** A row after [rename]. *)
Record row := Row {
  date : Z;
  state : string;
  cases_total : Z;
  deaths_total : Z
}.

(** A row after [assign]: the columns it had, and the two new ones. *)
Record daily := Daily {
  obs : row;
  cases_new : option Z;
  deaths_new : option Z
}.

#[global] Instance csv_row_eq_dec : EqDecision Csv.row.
Proof. solve_decision. Defined.
#[global] Instance row_eq_dec : EqDecision row.
Proof. solve_decision. Defined.
#[global] Instance daily_eq_dec : EqDecision daily.
Proof. solve_decision. Defined.

(** ** [sort_values(['state', 'date'])] *)

(** Rows are compared on the pair (state, date): states as Python compares
    strings, character by character, then dates. *)
Definition key_leb (k1 k2 : string * Z) : bool :=
  match String.compare k1.1 k2.1 with
  | Lt => true
  | Eq => k1.2 <=? k2.2
  | Gt => false
  end.

Definition csv_key (r : Csv.row) : string * Z := (Csv.state r, Csv.date r).
Definition row_key (r : row) : string * Z := (state r, date r).

Section sort_values.
Context {A : Type} (key : A → string * Z).

Fixpoint insert_row (x : A) (df : list A) : list A :=
  match df with
  | [] => [x]
  | y :: df' =>
      if key_leb (key x) (key y) then x :: df else y :: insert_row x df'
  end.

(** The sort on several columns is stable: rows with the same key keep
    the order in which they were read. *)
Definition sort_values (df : list A) : list A := foldr insert_row [] df.
End sort_values.

(** ** [rename(columns={'cases': 'cases_total', 'deaths': 'deaths_total'})] *)

Definition rename_row (r : Csv.row) : row :=
  {| date := Csv.date r; state := Csv.state r;
     cases_total := Csv.cases r; deaths_total := Csv.deaths r |}.

Definition rename (df : list Csv.row) : list row := rename_row <$> df.

(** ** [groupby('state')[col].diff().clip(lower=0)] *)

Section groupby.
Context {A : Type} (grp : A → string) (col : A → Z).

(** [last] holds, for every group met so far, the value of its latest
    row.  A row is paired with the difference to the previous row of its
    own group, or with [NaN] when it is the first of its group. *)
Fixpoint groupby_diff_from (last : gmap string Z) (df : list A)
  : list (option Z) :=
  match df with
  | [] => []
  | r :: df' =>
      ((λ prev, col r - prev) <$> last !! grp r)
        :: groupby_diff_from (<[grp r := col r]> last) df'
  end.

Definition groupby_diff (df : list A) : list (option Z) :=
  groupby_diff_from ∅ df.
End groupby.

(** [clip] leaves [NaN] alone and raises every other cell to the bound. *)
Definition clip_cell (lower : Z) (c : option Z) : option Z :=
  Z.max lower <$> c.

Definition clip (lower : Z) (s : list (option Z)) : list (option Z) :=
  clip_cell lower <$> s.

(** ** [assign(cases_new = ..., deaths_new = ...)] *)

Definition assign (df : list row) : list daily :=
  let cases_new := clip 0 (groupby_diff state cases_total df) in
  let deaths_new := clip 0 (groupby_diff state deaths_total df) in
  zip_with (λ r new, Daily r new.1 new.2) df (zip cases_new deaths_new).

(** ** [query("'2020-01-01' <= date <= '2020-12-31'")] *)

Definition in_2020 (d : Z) : Prop := date_2020_01_01 ≤ d ≤ date_2020_12_31.

#[global] Instance in_2020_dec d : Decision (in_2020 d).
Proof. unfold in_2020. apply _. Defined.

Definition query (df : list daily) : list daily :=
  filter (λ r, in_2020 (date (obs r))) df.

(** ** [reset_index(drop=True)] *)

(** The labels are renumbered and the old ones dropped; rows and their
    order stay. *)
Definition reset_index (df : list daily) : list daily := df.

(** ** The chain *)

Definition daily_df (csv : list Csv.row) : list daily :=
  reset_index (query (assign (rename (sort_values csv_key csv)))).

(** ** The frame with its index *)

(** The same chain, with the row labels that pandas carries along.  A frame
    is the list of its rows, each under its label; a column computed from
    it (a Series) has the labels of its frame. *)
Module Labelled.

(** [read_csv] numbers the lines of the feed from 0. *)
Definition read_csv (feed : list Csv.row) : list (nat * Csv.row) :=
  zip (seq 0%nat (length feed)) feed.

(** [sort_values] moves each row with its label. *)
Definition sort_values (df : list (nat * Csv.row)) : list (nat * Csv.row) :=
  sort_values (csv_key ∘ snd) df.

Definition rename (df : list (nat * Csv.row)) : list (nat * row) :=
  prod_map id rename_row <$> df.

Definition groupby_diff (col : row → Z) (df : list (nat * row))
  : list (nat * option Z) :=
  zip (df.*1) (groupby_diff (state ∘ snd) (col ∘ snd) df).

Definition clip (lower : Z) (s : list (nat * option Z))
  : list (nat * option Z) :=
  prod_map id (clip_cell lower) <$> s.

(** The cell of a Series under a label; [NaN] when it has no such label. *)
Fixpoint at_label (s : list (nat * option Z)) (i : nat) : option Z :=
  match s with
  | [] => None
  | (j, c) :: s' => if decide (j = i) then c else at_label s' i
  end.

(** [assign] lines a new column up with the frame by label. *)
Definition assign (df : list (nat * row)) : list (nat * daily) :=
  let cases_new := clip 0 (groupby_diff cases_total df) in
  let deaths_new := clip 0 (groupby_diff deaths_total df) in
  (λ p, (p.1, Daily p.2 (at_label cases_new p.1) (at_label deaths_new p.1)))
    <$> df.

Definition query (df : list (nat * daily)) : list (nat * daily) :=
  filter (λ p, in_2020 (date (obs p.2))) df.

(** [reset_index(drop=True)] numbers the rows anew, from 0, and forgets
    the labels they had. *)
Definition reset_index (df : list (nat * daily)) : list (nat * daily) :=
  zip (seq 0%nat (length df)) (df.*2).

(** The frame before the last step, and the table. *)
Definition before_reset (feed : list Csv.row) : list (nat * daily) :=
  query (assign (rename (sort_values (read_csv feed)))).

Definition daily_df (feed : list Csv.row) : list (nat * daily) :=
  reset_index (before_reset feed).

End Labelled.

(** [daily_df.head()]: the first five rows, or all if there are fewer. *)
Definition df_head (n : nat) (df : list daily) : list daily := take n df.

(** ** Views used by the statements *)

(** The rows of one state, in frame order. *)
Definition csv_of (e : string) (df : list Csv.row) : list Csv.row :=
  filter (λ r, Csv.state r = e) df.

Definition rows_of (e : string) (df : list daily) : list daily :=
  filter (λ r, state (obs r) = e) df.

(** The two metrics of the feed, each with its cumulative column and the
    column derived from it. *)
Inductive metric := Cases | Deaths.

Definition total (m : metric) (r : row) : Z :=
  match m with
  | Cases => cases_total r
  | Deaths => deaths_total r
  end.

Definition new (m : metric) (r : daily) : option Z :=
  match m with
  | Cases => cases_new r
  | Deaths => deaths_new r
  end.

(** What the result shows of one metric in a row. *)
Definition column (m : metric) (r : daily) : Z * string * Z * option Z :=
  (date (obs r), state (obs r), total m (obs r), new m r).

(** Two rows of the feed that differ at most in the other metric. *)
Definition same_for (m : metric) (x1 x2 : Csv.row) : Prop :=
  Csv.date x1 = Csv.date x2 ∧ Csv.state x1 = Csv.state x2 ∧
  total m (rename_row x1) = total m (rename_row x2).

(** The feed, and the result, with the two metrics in each other's place. *)
Definition swap_csv (x : Csv.row) : Csv.row :=
  Csv.Row (Csv.date x) (Csv.state x) (Csv.deaths x) (Csv.cases x).

Definition swap_row (r : row) : row :=
  Row (date r) (state r) (deaths_total r) (cases_total r).

Definition swap_daily (r : daily) : daily :=
  Daily (swap_row (obs r)) (deaths_new r) (cases_new r).

(** The feed, and the result, with [k] added to every cumulative value of
    metric [m]. *)
Definition shift_csv (m : metric) (k : Z) (x : Csv.row) : Csv.row :=
  match m with
  | Cases => Csv.Row (Csv.date x) (Csv.state x) (Csv.cases x + k) (Csv.deaths x)
  | Deaths => Csv.Row (Csv.date x) (Csv.state x) (Csv.cases x) (Csv.deaths x + k)
  end.

Definition shift_row (m : metric) (k : Z) (r : row) : row :=
  match m with
  | Cases => Row (date r) (state r) (cases_total r + k) (deaths_total r)
  | Deaths => Row (date r) (state r) (cases_total r) (deaths_total r + k)
  end.

Definition shift_daily (m : metric) (k : Z) (r : daily) : daily :=
  Daily (shift_row m k (obs r)) (cases_new r) (deaths_new r).

(** The order of the result: by state, and by date inside a state. *)
Definition row_le (r1 r2 : row) : Prop :=
  String.compare (state r1) (state r2) = Lt ∨
  (state r1 = state r2 ∧ date r1 ≤ date r2).

(** A cell that is not negative: missing, or at least zero. *)
Definition cell_ok (c : option Z) : Prop :=
  match c with
  | None => True
  | Some v => 0 ≤ v
  end.

(** A chart aggregates a column with [sum]; missing cells do not count. *)
Definition sum_cells (s : list (option Z)) : Z :=
  foldr (λ c acc, default 0 c + acc) 0 s.

(** ** Notions used by the proofs *)

(** The order of [sort_values] as a relation, on keys and on rows. *)
Definition key_le (k1 k2 : string * Z) : Prop := key_leb k1 k2 = true.

Definition by_key {A : Type} (key : A → string * Z) (x y : A) : Prop :=
  key_le (key x) (key y).

(** The cell [assign] writes for a row with value [v] whose group had
    [prev] as its latest value. *)
Definition new_cell (prev : option Z) (v : Z) : option Z :=
  clip_cell 0 ((λ p, v - p) <$> prev).

(** [assign] in one pass over the frame, both columns at once. *)
Fixpoint assign_from (lc ld : gmap string Z) (df : list row) : list daily :=
  match df with
  | [] => []
  | r :: df' =>
      Daily r (new_cell (lc !! state r) (cases_total r))
              (new_cell (ld !! state r) (deaths_total r))
        :: assign_from (<[state r := cases_total r]> lc)
                       (<[state r := deaths_total r]> ld) df'
  end.

(** What [assign] does to the rows of one state, seen alone: [pc] and [pd]
    are the values of the row before, if there is one. *)
Fixpoint series_from (pc pd : option Z) (s : list row) : list daily :=
  match s with
  | [] => []
  | r :: s' =>
      Daily r (new_cell pc (cases_total r)) (new_cell pd (deaths_total r))
        :: series_from (Some (cases_total r)) (Some (deaths_total r)) s'
  end.

(** ** Sample inputs *)

Definition ca_2020 (d : Z) (c0 c1 c2 c3 d0 d1 d2 d3 : Z) : list Csv.row :=
  [ Csv.Row d "CA" c0 d0; Csv.Row (d + 1) "CA" c1 d1;
    Csv.Row (d + 2) "CA" c2 d2; Csv.Row (d + 3) "CA" c3 d3 ].

Definition ca_example : list Csv.row :=
  ca_2020 (days_from_civil 2020 3 1) 100 150 140 200 0 1 1 2.


Definition ny_example : list Csv.row :=
  [ Csv.Row (days_from_civil 2020 3 1) "NY" 75 0 ].

Definition mixed_example : list Csv.row :=
  [ Csv.Row (days_from_civil 2020 3 2) "NY" 80 1;
    Csv.Row (days_from_civil 2020 3 2) "CA" 150 1;
    Csv.Row (days_from_civil 2021 1 1) "CA" 900 9;
    Csv.Row (days_from_civil 2020 3 1) "NY" 75 0;
    Csv.Row (days_from_civil 2020 3 3) "CA" 140 1;
    Csv.Row (days_from_civil 2020 3 1) "CA" 100 0 ].

Definition mixed_shuffled : list Csv.row :=
  [ Csv.Row (days_from_civil 2020 3 1) "CA" 100 0;
    Csv.Row (days_from_civil 2020 3 5) "NY" 999 9;
    Csv.Row (days_from_civil 2020 3 3) "CA" 140 1;
    Csv.Row (days_from_civil 2021 1 1) "CA" 900 9;
    Csv.Row (days_from_civil 2020 3 2) "CA" 150 1 ].

Definition cut_2019 : list Csv.row :=
  [ Csv.Row (days_from_civil 2020 1 1) "CA" 8 0;
    Csv.Row (days_from_civil 2019 12 31) "CA" 5 0 ].

(** * Facts about the order on keys *)

Lemma ascii_compare_N a b :
  Ascii.compare a b = N.compare (Ascii.N_of_ascii a) (Ascii.N_of_ascii b).
Proof. reflexivity. Qed.

Lemma string_compare_refl s : String.compare s s = Eq.
Proof.
  induction s as [|a s IH]; simpl; [done|].
  by rewrite ascii_compare_N, N.compare_refl.
Qed.

Lemma string_compare_eq s1 s2 : String.compare s1 s2 = Eq ↔ s1 = s2.
Proof.
  split; [apply String.compare_eq_iff|].
  intros ->. apply string_compare_refl.
Qed.

Lemma string_compare_gt_lt s1 s2 :
  String.compare s1 s2 = Gt ↔ String.compare s2 s1 = Lt.
Proof.
  rewrite (String.compare_antisym s2 s1).
  destruct (String.compare s1 s2); simpl; split; congruence.
Qed.

Lemma string_compare_lt_trans s1 s2 s3 :
  String.compare s1 s2 = Lt → String.compare s2 s3 = Lt →
  String.compare s1 s3 = Lt.
Proof.
  revert s2 s3. induction s1 as [|a1 s1 IH]; intros [|a2 s2] [|a3 s3];
    simpl; try done.
  rewrite !ascii_compare_N.
  destruct (N.compare_spec (Ascii.N_of_ascii a1) (Ascii.N_of_ascii a2))
    as [E12|L12|G12]; try done;
  destruct (N.compare_spec (Ascii.N_of_ascii a2) (Ascii.N_of_ascii a3))
    as [E23|L23|G23]; try done; intros H12 H23.
  - rewrite E12, E23, N.compare_refl. eauto.
  - rewrite E12. by rewrite (proj2 (N.compare_lt_iff _ _) L23).
  - rewrite <-E23. by rewrite (proj2 (N.compare_lt_iff _ _) L12).
  - assert (Ascii.N_of_ascii a1 < Ascii.N_of_ascii a3)%N as L13 by lia.
    by rewrite (proj2 (N.compare_lt_iff _ _) L13).
Qed.

Lemma key_leb_refl k : key_leb k k = true.
Proof.
  unfold key_leb. rewrite string_compare_refl. apply Z.leb_refl.
Qed.

Lemma key_leb_total k1 k2 : key_leb k1 k2 = false → key_leb k2 k1 = true.
Proof.
  unfold key_leb. rewrite (String.compare_antisym k2.1 k1.1).
  destruct (String.compare k1.1 k2.1); simpl; try done. lia.
Qed.

Lemma key_leb_trans k1 k2 k3 :
  key_leb k1 k2 = true → key_leb k2 k3 = true → key_leb k1 k3 = true.
Proof.
  unfold key_leb.
  destruct (String.compare k1.1 k2.1) eqn:E12; try done;
  destruct (String.compare k2.1 k3.1) eqn:E23; try done; intros H12 H23.
  - apply string_compare_eq in E12, E23.
    rewrite E12, E23, string_compare_refl. lia.
  - apply string_compare_eq in E12. by rewrite E12, E23.
  - apply string_compare_eq in E23. by rewrite <-E23, E12.
  - by rewrite (string_compare_lt_trans _ _ _ E12 E23).
Qed.

Lemma key_leb_antisym k1 k2 :
  key_leb k1 k2 = true → key_leb k2 k1 = true → k1 = k2.
Proof.
  unfold key_leb. rewrite (String.compare_antisym k2.1 k1.1).
  destruct (String.compare k1.1 k2.1) eqn:E; simpl; try done.
  apply string_compare_eq in E. intros H1 H2.
  destruct k1, k2; simpl in *. f_equal; [done|lia].
Qed.

(** Inside one state the order is the order of the dates. *)
Lemma key_leb_same_state e d1 d2 :
  key_leb (e, d1) (e, d2) = true ↔ d1 ≤ d2.
Proof.
  unfold key_leb; simpl. rewrite string_compare_refl. lia.
Qed.

#[global] Instance key_le_trans : Transitive key_le.
Proof. intros k1 k2 k3. apply key_leb_trans. Qed.

(** * Facts about [sort_values] *)

Section sort_facts.
Context {A : Type} (key : A → string * Z).

#[global] Instance by_key_trans : Transitive (by_key key).
Proof. intros x y z. apply key_leb_trans. Qed.

Lemma insert_row_perm x df : insert_row key x df ≡ₚ x :: df.
Proof.
  induction df as [|y df IH]; simpl; [done|].
  destruct (key_leb (key x) (key y)); [done|].
  rewrite IH. apply perm_swap.
Qed.

Lemma sort_values_perm df : sort_values key df ≡ₚ df.
Proof.
  induction df as [|x df IH]; simpl; [done|].
  by rewrite insert_row_perm, IH.
Qed.

Lemma insert_row_sorted x df :
  StronglySorted (by_key key) df → StronglySorted (by_key key) (insert_row key x df).
Proof.
  induction 1 as [|y df Hs IH Hy]; simpl.
  - repeat constructor.
  - destruct (key_leb (key x) (key y)) eqn:E.
    + constructor; [by constructor|].
      constructor; [done|].
      eapply Forall_impl; [exact Hy|].
      intros z Hz. exact (key_leb_trans _ _ _ E Hz).
    + constructor; [done|].
      rewrite insert_row_perm. constructor; [|done].
      by apply key_leb_total.
Qed.

Lemma sort_values_sorted df : StronglySorted (by_key key) (sort_values key df).
Proof.
  induction df as [|x df IH]; simpl; [constructor|].
  by apply insert_row_sorted.
Qed.

Lemma insert_row_least x df :
  Forall (by_key key x) df → insert_row key x df = x :: df.
Proof.
  destruct 1 as [|y df Hy _]; simpl; [done|].
  unfold by_key, key_le in Hy. by rewrite Hy.
Qed.

(** Taking the rows of a sorted frame that satisfy [P] and then inserting
    is inserting and then taking them. *)
Lemma filter_insert_row (P : A → Prop) `{!∀ x, Decision (P x)} x df :
  StronglySorted (by_key key) df →
  filter P (insert_row key x df) =
    if decide (P x) then insert_row key x (filter P df) else filter P df.
Proof.
  induction 1 as [|y df Hs IH Hy]; simpl.
  - rewrite filter_cons, filter_nil. by destruct (decide (P x)).
  - destruct (key_leb (key x) (key y)) eqn:E.
    + rewrite (filter_cons _ x). destruct (decide (P x)) as [Hx|Hx]; [|done].
      symmetry. apply insert_row_least.
      apply Forall_forall. intros z Hz.
      apply list_elem_of_filter in Hz as [_ Hz].
      apply elem_of_cons in Hz as [->|Hz]; [done|].
      rewrite Forall_forall in Hy. exact (key_leb_trans _ _ _ E (Hy z Hz)).
    + rewrite !(filter_cons _ y), IH.
      destruct (decide (P y)), (decide (P x)); simpl; try done.
      by rewrite E.
Qed.

Lemma filter_sort_values (P : A → Prop) `{!∀ x, Decision (P x)} df :
  filter P (sort_values key df) = sort_values key (filter P df).
Proof.
  induction df as [|x df IH]; simpl; [done|].
  rewrite filter_insert_row by apply sort_values_sorted.
  rewrite filter_cons, IH. by destruct (decide (P x)).
Qed.

(** Two sorted frames with the same rows, no two of them with the same
    key, are the same frame. *)
Lemma sorted_perm_eq (l1 l2 : list A) :
  NoDup (key <$> l1) → l1 ≡ₚ l2 →
  StronglySorted (by_key key) l1 → StronglySorted (by_key key) l2 → l1 = l2.
Proof.
  intros Hnd Hp Hs1 Hs2.
  apply (StronglySorted_unique_strong (by_key key)); try done.
  intros x1 x2 Hx1 Hx2 H12 H21. rewrite <-Hp in Hx2.
  pose proof (key_leb_antisym _ _ H12 H21) as Hk.
  clear -Hnd Hx1 Hx2 Hk.
  induction l1 as [|y l1 IH]; [by apply elem_of_nil in Hx1|].
  rewrite fmap_cons in Hnd. apply NoDup_cons in Hnd as [Hy Hnd].
  apply elem_of_cons in Hx1 as [->|Hx1], Hx2 as [->|Hx2]; try done.
  - destruct Hy. rewrite Hk. by apply list_elem_of_fmap_2.
  - destruct Hy. rewrite <-Hk. by apply list_elem_of_fmap_2.
  - by apply IH.
Qed.

Lemma sort_values_perm_eq (l1 l2 : list A) :
  NoDup (key <$> l1) → l1 ≡ₚ l2 → sort_values key l1 = sort_values key l2.
Proof.
  intros Hnd Hp. apply sorted_perm_eq; try apply sort_values_sorted.
  - by rewrite sort_values_perm.
  - by rewrite !sort_values_perm.
Qed.

Lemma sort_values_sorted_id df :
  StronglySorted (by_key key) df → sort_values key df = df.
Proof.
  induction 1 as [|x df Hs IH Hx]; simpl; [done|].
  rewrite IH. by apply insert_row_least.
Qed.

(** The sort is stable: the rows that share a key come out in the order
    in which they went in. *)
Lemma sort_values_stable k df :
  filter (λ x, key x = k) (sort_values key df) = filter (λ x, key x = k) df.
Proof.
  rewrite filter_sort_values. apply sort_values_sorted_id.
  assert (Forall (λ x, key x = k) (filter (λ x, key x = k) df)) as Hall.
  { apply Forall_forall. intros x Hx.
    by apply list_elem_of_filter in Hx as [? _]. }
  induction Hall as [|x l Hx Hl IH]; constructor; [done|].
  eapply Forall_impl; [exact Hl|]. intros y Hy. unfold by_key, key_le.
  rewrite Hx, Hy. apply key_leb_refl.
Qed.
End sort_facts.


(** * Facts about [assign] *)

Lemma assign_from_spec lc ld df :
  zip_with (λ r new, Daily r new.1 new.2) df
    (zip (clip 0 (groupby_diff_from state cases_total lc df))
         (clip 0 (groupby_diff_from state deaths_total ld df)))
  = assign_from lc ld df.
Proof.
  revert lc ld. induction df as [|r df IH]; intros lc ld; simpl; [done|].
  by rewrite IH.
Qed.

Lemma assign_assign_from df : assign df = assign_from ∅ ∅ df.
Proof. apply assign_from_spec. Qed.

Lemma obs_assign_from lc ld df : obs <$> assign_from lc ld df = df.
Proof.
  revert lc ld. induction df as [|r df IH]; intros lc ld; simpl; [done|].
  by rewrite IH.
Qed.

Lemma obs_assign df : obs <$> assign df = df.
Proof. rewrite assign_assign_from. apply obs_assign_from. Qed.

Lemma rows_of_assign_from e lc ld df :
  rows_of e (assign_from lc ld df)
  = series_from (lc !! e) (ld !! e) (filter (λ r, state r = e) df).
Proof.
  unfold rows_of. revert lc ld.
  induction df as [|r df IH]; intros lc ld; simpl; [done|].
  rewrite !filter_cons; simpl. destruct (decide (state r = e)) as [<-|Hne].
  - simpl. by rewrite IH, !lookup_insert_eq.
  - by rewrite IH, !lookup_insert_ne.
Qed.

Lemma rows_of_assign e df :
  rows_of e (assign df) = series_from None None (filter (λ r, state r = e) df).
Proof. by rewrite assign_assign_from, rows_of_assign_from, !lookup_empty. Qed.

Lemma obs_series_from pc pd s : obs <$> series_from pc pd s = s.
Proof.
  revert pc pd. induction s as [|r s IH]; intros pc pd; simpl; [done|].
  by rewrite IH.
Qed.

Lemma new_cell_ok prev v : cell_ok (new_cell prev v).
Proof. destruct prev; simpl; [lia|done]. Qed.

Lemma assign_from_cells_ok m lc ld df :
  Forall (λ r, cell_ok (new m r)) (assign_from lc ld df).
Proof.
  revert lc ld. induction df as [|r df IH]; intros lc ld; simpl.
  - constructor.
  - constructor; [|apply IH]. destruct m; apply new_cell_ok.
Qed.

(** A piece cut out of a series is again a series. *)
Lemma series_from_drop pc pd s pre l :
  series_from pc pd s = pre ++ l →
  ∃ pc' pd' s', series_from pc' pd' s' = l ∧
    (pre = [] → pc' = pc ∧ pd' = pd).
Proof.
  revert pc pd s. induction pre as [|p pre IH]; intros pc pd s; simpl.
  - intros H. by exists pc, pd, s.
  - destruct s as [|x s]; simpl; [done|]. intros [= _ H].
    destruct (IH _ _ _ H) as (pc' & pd' & s' & Hl & _).
    by exists pc', pd', s'.
Qed.

Lemma series_from_head m s r l :
  series_from None None s = r :: l → new m r = None.
Proof.
  destruct s as [|x s]; simpl; [done|]. intros [= <- _]. by destruct m.
Qed.

(** Two rows that follow each other in the series of a state. *)
Lemma series_from_next m pc pd s pre r1 r2 post :
  series_from pc pd s = pre ++ r1 :: r2 :: post →
  new m r2 = Some (Z.max 0 (total m (obs r2) - total m (obs r1))).
Proof.
  intros H. apply series_from_drop in H as (pc' & pd' & s' & H & _).
  destruct s' as [|x [|y s']]; simpl in H; try done.
  injection H as <- <- _. by destruct m.
Qed.


(** * Facts about [query] *)

Lemma filter_none {A} (P : A → Prop) `{!∀ x, Decision (P x)} (l : list A) :
  Forall (λ x, ¬ P x) l → filter P l = [].
Proof.
  induction 1 as [|x l Hx _ IH]; [done|].
  by rewrite filter_cons_False.
Qed.

(** On a frame sorted by date, the rows inside a range of dates form one
    block: only too early rows before it, only too late rows after it. *)
Lemma query_block (df : list daily) :
  StronglySorted (λ r1 r2, date (obs r1) ≤ date (obs r2)) df →
  ∃ early late, df = early ++ query df ++ late ∧
    Forall (λ r, date (obs r) < date_2020_01_01) early ∧
    Forall (λ r, date_2020_12_31 < date (obs r)) late.
Proof.
  unfold query. induction 1 as [|x df Hs IH Hx].
  - exists [], []. by repeat constructor.
  - destruct IH as (early & late & Hdf & He & Hl).
    rewrite filter_cons. destruct (decide (in_2020 (date (obs x)))) as [Hin|Hout].
    + exists [], late. split_and!; [|constructor|done].
      destruct early as [|y early]; [simpl in *; by f_equal|].
      apply Forall_cons in He as [Hy _].
      rewrite Hdf in Hx. apply Forall_cons in Hx as [Hxy _].
      unfold in_2020 in Hin. lia.
    + unfold in_2020 in Hout.
      destruct (decide (date (obs x) < date_2020_01_01)) as [Hlt|Hge].
      * exists (x :: early), late. split_and!; [|by constructor|done].
        simpl. by f_equal.
      * assert (filter (λ r, in_2020 (date (obs r))) df = []) as ->.
        { apply filter_none, Forall_forall. intros y Hy.
          rewrite Forall_forall in Hx. specialize (Hx y Hy).
          unfold in_2020. lia. }
        exists [], (x :: df). split_and!; [done|constructor|].
        constructor; [lia|].
        eapply Forall_impl; [exact Hx|]. simpl. intros y Hy. lia.
Qed.

Lemma filter_all {A} (P : A → Prop) `{!∀ x, Decision (P x)} (l : list A) :
  Forall P l → filter P l = l.
Proof.
  induction 1 as [|x l Hx _ IH]; [done|].
  by rewrite filter_cons_True, IH.
Qed.

Lemma rows_of_query e df : rows_of e (query df) = query (rows_of e df).
Proof.
  unfold rows_of, query. rewrite !list_filter_filter.
  apply list_filter_iff. tauto.
Qed.

(** * The rows of one state in [daily_df] *)

Lemma csv_of_rename e df :
  filter (λ r, state r = e) (rename df) = rename (csv_of e df).
Proof.
  unfold rename, csv_of. induction df as [|r df IH]; [done|].
  rewrite fmap_cons, !filter_cons, IH. simpl.
  by destruct (decide (Csv.state r = e)).
Qed.

(** The rows of state [e] in the result come from the rows of [e] in the
    feed alone: sorted, differenced as one series, cut to the year. *)
Lemma rows_of_daily_df e csv :
  rows_of e (daily_df csv)
  = query (series_from None None (rename (sort_values csv_key (csv_of e csv)))).
Proof.
  unfold daily_df, reset_index.
  rewrite rows_of_query, rows_of_assign, csv_of_rename.
  unfold csv_of. by rewrite filter_sort_values.
Qed.

Lemma StronglySorted_through {A B} (f : A → B) (R : relation B) (l : list A) :
  StronglySorted R (f <$> l) → StronglySorted (λ x y, R (f x) (f y)) l.
Proof.
  induction l as [|x l IH]; [intros _; constructor|].
  rewrite fmap_cons. intros [Hx Hs]%StronglySorted_cons.
  constructor; [by apply IH|]. exact (proj1 (Forall_fmap f (R (f x)) l) Hx).
Qed.

Lemma csv_of_sorted_by_date e csv :
  StronglySorted (λ r1 r2, Csv.date r1 ≤ Csv.date r2)
    (sort_values csv_key (csv_of e csv)).
Proof.
  pose proof (sort_values_sorted csv_key (csv_of e csv)) as Hs.
  assert (Forall (λ r, Csv.state r = e) (sort_values csv_key (csv_of e csv)))
    as Hall.
  { rewrite sort_values_perm. apply Forall_forall. intros r Hr.
    by apply list_elem_of_filter in Hr as [? _]. }
  induction Hs as [|x l Hs IH Hx]; [constructor|].
  apply Forall_cons in Hall as [Hex Hall]. constructor; [by apply IH|].
  clear IH Hs. induction Hx as [|y l Hy _ IH']; [constructor|].
  apply Forall_cons in Hall as [Hey Hall]. constructor; [|by apply IH'].
  unfold by_key, key_le, csv_key in Hy. rewrite Hex, Hey in Hy.
  by apply key_leb_same_state in Hy.
Qed.

Lemma series_sorted_by_date e csv pc pd :
  StronglySorted (λ r1 r2, date (obs r1) ≤ date (obs r2))
    (series_from pc pd (rename (sort_values csv_key (csv_of e csv)))).
Proof.
  apply (StronglySorted_through obs (λ r1 r2 : row, date r1 ≤ date r2)).
  rewrite obs_series_from. unfold rename.
  eapply StronglySorted_fmap; [|apply csv_of_sorted_by_date].
  by intros r1 r2.
Qed.

(** The rows of a state in the result are one block of its series. *)
Lemma rows_of_daily_df_block e csv :
  ∃ early late,
    series_from None None (rename (sort_values csv_key (csv_of e csv)))
      = early ++ rows_of e (daily_df csv) ++ late ∧
    Forall (λ r, date (obs r) < date_2020_01_01) early.
Proof.
  destruct (query_block _ (series_sorted_by_date e csv None None))
    as (early & late & H & He & _).
  exists early, late. by rewrite rows_of_daily_df.
Qed.

Lemma series_row_origin e csv pc pd r :
  r ∈ series_from pc pd (rename (sort_values csv_key (csv_of e csv))) →
  ∃ x, x ∈ csv ∧ Csv.state x = e ∧ obs r = rename_row x.
Proof.
  intros Hr. apply (list_elem_of_fmap_2 obs) in Hr.
  rewrite obs_series_from in Hr. unfold rename in Hr.
  apply list_elem_of_fmap in Hr as (x & Hx & Hin).
  rewrite sort_values_perm in Hin. unfold csv_of in Hin.
  apply list_elem_of_filter in Hin as [He Hin]. by exists x.
Qed.

(** When no row of a state is older than 2020, the rows of that state in
    the result are the beginning of its series. *)
Lemma rows_of_daily_df_prefix e csv :
  Forall (λ x, Csv.state x = e → date_2020_01_01 ≤ Csv.date x) csv →
  ∃ late,
    series_from None None (rename (sort_values csv_key (csv_of e csv)))
      = rows_of e (daily_df csv) ++ late.
Proof.
  intros Hcsv. destruct (rows_of_daily_df_block e csv)
    as (early & late & H & He).
  exists late. destruct early as [|r early]; [done|]. exfalso.
  apply Forall_cons in He as [Hr _].
  assert (r ∈ series_from None None
            (rename (sort_values csv_key (csv_of e csv)))) as Hin.
  { rewrite H. by left. }
  apply series_row_origin in Hin as (x & Hx & Hex & Hobs).
  rewrite Forall_forall in Hcsv. specialize (Hcsv x Hx Hex).
  rewrite Hobs in Hr. simpl in Hr. lia.
Qed.

(** * The chain on sample feeds *)

Example days_from_civil_samples :
  days_from_civil 1970 1 1 = 0 ∧ days_from_civil 2000 3 1 = 11017 ∧
  days_from_civil 2020 3 1 = 18322 ∧ days_from_civil 2021 1 1 = 18628.
Proof. done. Qed.

(** Rows read in any order, two states, one row of 2021: sorted by state
    and date, differenced inside each state, cut to 2020. *)
Example daily_df_mixed :
  daily_df mixed_example
  = [ Daily (Row 18322 "CA" 100 0) None None;
      Daily (Row 18323 "CA" 150 1) (Some 50) (Some 1);
      Daily (Row 18324 "CA" 140 1) (Some 0) (Some 0);
      Daily (Row 18322 "NY" 75 0) None None;
      Daily (Row 18323 "NY" 80 1) (Some 5) (Some 1) ].
Proof. by vm_compute. Qed.

(** The difference is taken before the cut: the first row that 2020 keeps
    of a state is measured against the last row of 2019. *)
Example daily_df_cut_2019 :
  daily_df cut_2019 = [ Daily (Row 18262 "CA" 8 0) (Some 3) (Some 0) ].
Proof. by vm_compute. Qed.

(** * The claims *)

(** ** C1: the first row of a state *)

(** C1, as stated, fails.  The feed is the single row of NY with 75 cases;
    were the claim true, the first (and only) row of NY in the result would
    have 75 new cases.  It has none: [diff] has nothing to subtract from,
    and the cell stays [NaN]. *)
Lemma first_row_is_not_total :
  ¬ (∀ r, head (rows_of "NY" (daily_df ny_example)) = Some r →
          new Cases r = Some (total Cases (obs r))).
Proof.
  intros H. by specialize (H _ eq_refl).
Qed.

(** C1, amended: for every state whose rows are all dated 2020-01-01 or
    later, the first row of the state in the result has no increment, for
    either metric, whatever its cumulative value; so it is for a state with
    a single row. *)
Theorem first_row_missing (csv : list Csv.row) (e : string) (m : metric)
    (r : daily) :
  Forall (λ x, Csv.state x = e → date_2020_01_01 ≤ Csv.date x) csv →
  head (rows_of e (daily_df csv)) = Some r →
  new m r = None.
Proof.
  intros Hcsv Hr. destruct (rows_of_daily_df_prefix e csv Hcsv) as [late H].
  destruct (rows_of e (daily_df csv)) as [|r' l]; [done|].
  injection Hr as ->. exact (series_from_head m _ _ _ H).
Qed.

Lemma first_row_missing_witness :
  new Cases (Daily (Row 18322 "NY" 75 0) None None) = None.
Proof.
  apply (first_row_missing ny_example "NY" Cases).
  - repeat constructor. intros _. by vm_compute.
  - reflexivity.
Defined.

(** ** C2: the worked example *)

(** C2, as stated, fails: on the four rows of CA the column of new cases is
    not 100, 50, 0, 60. *)
Lemma ca_example_not_100 :
  new Cases <$> daily_df ca_example ≠ [Some 100; Some 50; Some 0; Some 60].
Proof. by vm_compute. Qed.

(** C2, amended: for CA with 100, 150, 140, 200 cases on four days in a row
    of 2020, whatever the deaths, the new cases are: missing, 50, 0, 60. *)
Theorem ca_example_new_cases (d d0 d1 d2 d3 : Z) :
  in_2020 d → in_2020 (d + 3) →
  new Cases <$> daily_df (ca_2020 d 100 150 140 200 d0 d1 d2 d3)
  = [None; Some 50; Some 0; Some 60].
Proof.
  unfold in_2020. intros Hd Hd3.
  unfold daily_df, reset_index, ca_2020.
  rewrite sort_values_sorted_id.
  2:{ repeat match goal with
             | |- StronglySorted _ _ => constructor
             | |- Forall _ _ => constructor
             end; unfold by_key, key_le, csv_key; simpl;
        apply key_leb_same_state; lia. }
  rewrite assign_assign_from. unfold query. simpl.
  rewrite !filter_cons_True by (unfold in_2020; simpl; lia).
  simpl. rewrite lookup_empty, !lookup_insert_eq. reflexivity.
Qed.

Lemma ca_example_new_cases_witness :
  new Cases <$> daily_df ca_example = [None; Some 50; Some 0; Some 60].
Proof.
  apply (ca_example_new_cases 18322 0 1 1 2);
    unfold in_2020, date_2020_01_01, date_2020_12_31; lia.
Defined.

(** ** C3: no negative increment *)

(** C3, as stated, fails.  The claim, with the data model, has every
    incremental_count a non-negative number.  On the four rows of CA, which
    share no date, the first cell of new cases is [NaN]: no number at
    all. *)
Lemma first_cell_is_no_number :
  ¬ Forall (λ r, ∃ v, new Cases r = Some v ∧ 0 ≤ v) (daily_df ca_example).
Proof.
  intros H. apply Forall_cons in H as [(v & Hv & _) _]. discriminate Hv.
Qed.

Lemma series_from_present m pc pd s :
  Forall (λ r, ∃ v, new m r = Some v ∧ 0 ≤ v)
         (series_from (Some pc) (Some pd) s).
Proof.
  revert pc pd. induction s as [|x s IH]; intros pc pd; simpl.
  - constructor.
  - constructor; [|apply IH].
    destruct m; simpl; unfold new_cell; simpl; eexists; (split; [done|lia]).
Qed.

(** C3, amended: whatever the feed, a cell of the two new columns is
    missing or a number that is at least zero, never a negative number;
    and it can be missing on the first row of a state only: on every row
    of the result that comes after a row of its state the cell is a number
    and at least zero. *)
Theorem new_cells_missing_or_not_negative (csv : list Csv.row) (m : metric) :
  Forall (λ r, new m r = None ∨ ∃ v, new m r = Some v ∧ 0 ≤ v)
         (daily_df csv) ∧
  ∀ e r rest,
    rows_of e (daily_df csv) = r :: rest →
    Forall (λ r', ∃ v, new m r' = Some v ∧ 0 ≤ v) rest.
Proof.
  split.
  - unfold daily_df, reset_index, query. rewrite assign_assign_from.
    apply Forall_forall. intros r Hr.
    apply list_elem_of_filter in Hr as [_ Hr].
    pose proof (assign_from_cells_ok m ∅ ∅ (rename (sort_values csv_key csv)))
      as Hok.
    rewrite Forall_forall in Hok. specialize (Hok r Hr).
    destruct (new m r) as [v|]; [right|by left]. by exists v.
  - intros e r rest Hrows.
    destruct (rows_of_daily_df_block e csv) as (early & late & H & _).
    rewrite Hrows in H.
    apply series_from_drop in H as (pc & pd & s & H & _).
    destruct s as [|x s]; [done|]. simpl in H. injection H as _ H.
    pose proof (series_from_present m (cases_total x) (deaths_total x) s)
      as Hall.
    rewrite H in Hall. by apply Forall_app in Hall as [? _].
Qed.

Lemma new_cells_missing_or_not_negative_witness :
  Forall (λ r', ∃ v, new Cases r' = Some v ∧ 0 ≤ v)
    [ Daily (Row 18323 "CA" 150 1) (Some 50) (Some 1);
      Daily (Row 18324 "CA" 140 1) (Some 0) (Some 0);
      Daily (Row 18325 "CA" 200 2) (Some 60) (Some 1) ].
Proof.
  apply (proj2 (new_cells_missing_or_not_negative ca_example Cases) "CA"
           (Daily (Row 18322 "CA" 100 0) None None)).
  reflexivity.
Defined.

(** ** C4: a correction of the feed *)




(** ** C5: adding the increments up *)




(** ** C6: how many rows *)

(** C6, as stated, fails: of the six rows of the mixed feed, one is dated
    2021-01-01 and the result has five rows. *)
Lemma row_of_2021_dropped :
  length (daily_df mixed_example) ≠ length mixed_example.
Proof. by vm_compute. Qed.

Lemma fmap_filter {A B} (f : A → B) (P : B → Prop)
    `{!∀ y, Decision (P y)} `{!∀ x, Decision (P (f x))} (l : list A) :
  f <$> filter (λ x, P (f x)) l = filter P (f <$> l).
Proof.
  induction l as [|x l IH]; [done|].
  rewrite fmap_cons, !filter_cons, <-IH.
  by destruct (decide (P (f x))), (decide (P (f x))).
Qed.

(** The original columns of the result: the rows of the feed, sorted, with
    their columns renamed, those of 2020 only. *)
Lemma obs_daily_df csv :
  obs <$> daily_df csv
  = rename (filter (λ r, in_2020 (Csv.date r)) (sort_values csv_key csv)).
Proof.
  unfold daily_df, reset_index, query.
  rewrite (fmap_filter obs (λ r, in_2020 (date r))), obs_assign.
  unfold rename. by rewrite <-(fmap_filter rename_row (λ r, in_2020 (date r))).
Qed.

(** C6, amended: the result has exactly one row for every row of the feed
    that is dated from 2020-01-01 to 2020-12-31, and no other row; the rows
    of the feed outside 2020 are left out. *)
Theorem one_row_per_row_of_2020 (csv : list Csv.row) :
  length (daily_df csv)
    = length (filter (λ r, in_2020 (Csv.date r)) csv) ∧
  obs <$> daily_df csv
    ≡ₚ rename (filter (λ r, in_2020 (Csv.date r)) csv).
Proof.
  assert (obs <$> daily_df csv
            ≡ₚ rename (filter (λ r, in_2020 (Csv.date r)) csv)) as Hp.
  { rewrite obs_daily_df. unfold rename. by rewrite sort_values_perm. }
  split; [|done].
  apply Permutation_length in Hp. unfold rename in Hp.
  by rewrite !length_fmap in Hp.
Qed.

(** ** C7: the order of the feed, and the other states *)

(** C7: take two feeds in which state [e] has the same rows, in any order,
    no two of them on the same date (the invariant of a series); the other
    states may differ at will.  Then the rows of [e] in the two results are
    the same, in the same order.  So it is when the second feed is the
    first with its rows permuted. *)
Theorem state_rows_independent (csv1 csv2 : list Csv.row) (e : string) :
  NoDup (Csv.date <$> csv_of e csv1) →
  csv_of e csv1 ≡ₚ csv_of e csv2 →
  rows_of e (daily_df csv1) = rows_of e (daily_df csv2).
Proof.
  intros Hnd Hp. rewrite !rows_of_daily_df.
  assert (NoDup (csv_key <$> csv_of e csv1)) as Hkeys.
  { apply (NoDup_fmap_1 snd). by rewrite <-list_fmap_compose. }
  by rewrite (sort_values_perm_eq csv_key _ _ Hkeys Hp).
Qed.

Lemma state_rows_independent_witness :
  rows_of "CA" (daily_df mixed_example)
  = rows_of "CA" (daily_df mixed_shuffled).
Proof.
  apply (state_rows_independent mixed_example mixed_shuffled "CA").
  - apply (bool_decide_unpack _). by vm_compute.
  - apply (bool_decide_unpack _). by vm_compute.
Defined.

(** ** C8: the two metrics *)

Section two_feeds.
Context {A : Type} (key : A → string * Z) (R : relation A).
Hypothesis R_key : ∀ x y, R x y → key x = key y.

Lemma insert_row_Forall2 x y l k :
  R x y → Forall2 R l k →
  Forall2 R (insert_row key x l) (insert_row key y k).
Proof.
  intros Hxy. induction 1 as [|x' y' l k Hxy' Hlk IH]; simpl.
  - by repeat constructor.
  - rewrite <-(R_key _ _ Hxy), <-(R_key _ _ Hxy').
    destruct (key_leb (key x) (key x')); by repeat constructor.
Qed.

Lemma sort_values_Forall2 l k :
  Forall2 R l k → Forall2 R (sort_values key l) (sort_values key k).
Proof.
  induction 1; simpl; [constructor|]. by apply insert_row_Forall2.
Qed.
End two_feeds.

Lemma sort_values_fmap {A B} (key : A → string * Z) (key' : B → string * Z)
    (f : A → B) (l : list A) :
  (∀ x, key' (f x) = key x) →
  sort_values key' (f <$> l) = f <$> sort_values key l.
Proof.
  intros Hkey. induction l as [|x l IH]; csimpl; [done|].
  rewrite IH. generalize (sort_values key l). intros k.
  induction k as [|y k IHk]; csimpl; [done|].
  rewrite !Hkey. destruct (key_leb (key x) (key y)); csimpl; [done|].
  by rewrite IHk.
Qed.

Lemma assign_from_swap lc ld df :
  assign_from lc ld (swap_row <$> df) = swap_daily <$> assign_from ld lc df.
Proof.
  revert lc ld. induction df as [|r df IH]; intros lc ld; csimpl; [done|].
  by rewrite IH.
Qed.

(** The two new columns are made the same way: with cases and deaths in
    each other's place in the feed, they are in each other's place in the
    result. *)
Lemma daily_df_swap csv :
  daily_df (swap_csv <$> csv) = swap_daily <$> daily_df csv.
Proof.
  unfold daily_df, reset_index, query, rename.
  rewrite (sort_values_fmap csv_key csv_key swap_csv) by done.
  rewrite <-list_fmap_compose, !assign_assign_from.
  rewrite (list_fmap_compose rename_row swap_row), assign_from_swap.
  symmetry. apply (fmap_filter swap_daily (λ r, in_2020 (date (obs r)))).
Qed.

Lemma assign_from_column m lc1 ld1 lc2 ld2 df1 df2 :
  match m with Cases => lc1 = lc2 | Deaths => ld1 = ld2 end →
  Forall2 (λ r1 r2, date r1 = date r2 ∧ state r1 = state r2 ∧
                    total m r1 = total m r2) df1 df2 →
  Forall2 (λ r1 r2, column m r1 = column m r2)
          (assign_from lc1 ld1 df1) (assign_from lc2 ld2 df2).
Proof.
  intros Hlast Hdf. revert lc1 ld1 lc2 ld2 Hlast.
  induction Hdf as [|r1 r2 df1 df2 (Hd & Hs & Ht) _ IH];
    intros lc1 ld1 lc2 ld2 Hlast; simpl; [constructor|].
  constructor.
  - unfold column. destruct m; simpl in *; by rewrite Hd, Hs, Ht, Hlast.
  - apply IH. destruct m; simpl in *; by rewrite Hs, Ht, Hlast.
Qed.

(** C8: each new column is made from its own cumulative column, by the same
    [groupby('state')[col].diff().clip(lower=0)].  Two feeds whose rows
    agree, one by one, on date, state and the cumulative value of metric
    [m] give results that agree on the cumulative and on the new column of
    [m]: the values of the other metric have no part in it. *)
Theorem metric_independent (m : metric) (csv1 csv2 : list Csv.row) :
  Forall2 (same_for m) csv1 csv2 →
  column m <$> daily_df csv1 = column m <$> daily_df csv2.
Proof.
  intros H.
  apply (sort_values_Forall2 csv_key) in H; [|by intros x y (Hd & Hs & _);
    unfold csv_key; rewrite Hd, Hs].
  assert (Forall2 (λ r1 r2, column m r1 = column m r2)
            (daily_df csv1) (daily_df csv2)) as Hcol.
  { unfold daily_df, reset_index, query. rewrite !assign_assign_from.
    apply Forall2_filter.
    { intros r1 r2 [= Hd _ _ _]. by rewrite Hd. }
    apply assign_from_column; [by destruct m|]. unfold rename.
    apply Forall2_fmap. eapply Forall2_impl; [exact H|].
    by intros x y (Hd & Hs & Ht). }
  induction Hcol as [|r1 r2 l k Hr _ IH]; [done|].
  by rewrite !fmap_cons, Hr, IH.
Qed.

Lemma metric_independent_witness :
  column Cases <$> daily_df ca_example
  = column Cases <$> daily_df (ca_2020 18322 100 150 140 200 5 6 7 8).
Proof.
  apply (metric_independent Cases).
  repeat constructor.
Defined.

(** ** C9: the original columns *)

(** C9: [daily_df] is a function of the feed and changes nothing in it.
    The original columns of the result are the rows of the feed that fall
    in 2020, in sorted order, with [cases] and [deaths] under their new
    names; every row of the result carries the date, the state and the two
    cumulative values of a row of the feed, and the new columns beside
    them. *)
Theorem original_columns_kept (csv : list Csv.row) :
  obs <$> daily_df csv
    = rename (filter (λ r, in_2020 (Csv.date r)) (sort_values csv_key csv)) ∧
  Forall (λ r, ∃ x, x ∈ csv ∧
                date (obs r) = Csv.date x ∧ state (obs r) = Csv.state x ∧
                cases_total (obs r) = Csv.cases x ∧
                deaths_total (obs r) = Csv.deaths x)
         (daily_df csv).
Proof.
  split; [apply obs_daily_df|].
  apply Forall_forall. intros r Hr.
  apply (list_elem_of_fmap_2 obs) in Hr. rewrite obs_daily_df in Hr.
  unfold rename in Hr. apply list_elem_of_fmap in Hr as (x & -> & Hx).
  apply list_elem_of_filter in Hx as [_ Hx]. rewrite sort_values_perm in Hx.
  by exists x.
Qed.

(** ** C10: the order of the result *)

Lemma key_leb_row_le (r1 r2 : row) :
  key_leb (row_key r1) (row_key r2) = true ↔ row_le r1 r2.
Proof.
  unfold key_leb, row_le, row_key; simpl.
  destruct (String.compare (state r1) (state r2)) eqn:E.
  - apply string_compare_eq in E. rewrite Z.leb_le. split; [by right|].
    by intros [?|[_ ?]].
  - split; [by left|done].
  - split; [done|]. intros [?|[Hs _]]; [done|].
    apply string_compare_eq in Hs. congruence.
Qed.

Lemma StronglySorted_filter {A} (R : relation A) (P : A → Prop)
    `{!∀ x, Decision (P x)} (l : list A) :
  StronglySorted R l → StronglySorted R (filter P l).
Proof.
  induction 1 as [|x l Hs IH Hx]; [constructor|].
  rewrite filter_cons. destruct (decide (P x)); [|done].
  constructor; [done|]. apply Forall_forall. intros y Hy.
  apply list_elem_of_filter in Hy as [_ Hy].
  rewrite Forall_forall in Hx. by apply Hx.
Qed.

(** In a sorted frame the rows picked by [P] form one block, when [P]
    holds of every row between two rows of which it holds. *)
Lemma filter_block {A} (R : relation A) (P : A → Prop)
    `{!∀ x, Decision (P x)} (l : list A) :
  (∀ x y z, R x y → R y z → P x → P z → P y) →
  StronglySorted R l →
  ∃ before after, l = before ++ filter P l ++ after ∧
    Forall (λ x, ¬ P x) before.
Proof.
  intros Hconvex. induction 1 as [|x l Hs IH Hx].
  - exists [], []. by split.
  - destruct IH as (before & after & Hl & Hb). rewrite filter_cons.
    destruct (decide (P x)) as [HPx|HPx].
    + destruct (filter P l) as [|z f] eqn:Hf.
      { exists [], l. by split. }
      destruct before as [|y before].
      { exists [], after. split; [|done]. simpl in *. by f_equal. }
      exfalso. apply Forall_cons in Hb as [Hy _]. apply Hy.
      assert (z ∈ filter P l) as Hz by (rewrite Hf; by left).
      apply list_elem_of_filter in Hz as [HPz _].
      apply (Hconvex x y z); try done.
      * rewrite Forall_forall in Hx. apply Hx. rewrite Hl. by left.
      * rewrite Hl in Hs. simpl in Hs.
        apply StronglySorted_cons in Hs as [Hy' _].
        rewrite Forall_forall in Hy'. apply Hy'.
        apply elem_of_app. right. by left.
    + exists (x :: before), after. split; [simpl; by f_equal|].
      by constructor.
Qed.

(** C10: the result is in the order of (state, date): states ascending as
    strings, dates ascending inside a state; and the rows of a state stand
    together, no row of another state between them. *)
Theorem daily_df_sorted (csv : list Csv.row) :
  StronglySorted (λ r1 r2, row_le (obs r1) (obs r2)) (daily_df csv) ∧
  ∀ e, ∃ before after,
    daily_df csv = before ++ rows_of e (daily_df csv) ++ after ∧
    Forall (λ r, state (obs r) ≠ e) before ∧
    Forall (λ r, state (obs r) ≠ e) after.
Proof.
  assert (StronglySorted (λ r1 r2, row_le (obs r1) (obs r2)) (daily_df csv))
    as Hsorted.
  { unfold daily_df, reset_index, query. apply StronglySorted_filter.
    apply (StronglySorted_through obs row_le). rewrite obs_assign.
    unfold rename. eapply StronglySorted_fmap; [|apply sort_values_sorted].
    intros x y Hxy. by apply key_leb_row_le. }
  split; [done|]. intros e.
  assert (∀ x y z : daily,
            row_le (obs x) (obs y) → row_le (obs y) (obs z) →
            state (obs x) = e → state (obs z) = e → state (obs y) = e)
    as Hconvex.
  { intros x y z Hxy Hyz Hx Hz.
    destruct Hxy as [Hxy|[Hxy _]]; [|congruence].
    destruct Hyz as [Hyz|[Hyz _]]; [|congruence].
    rewrite Hx in Hxy. rewrite Hz in Hyz.
    apply string_compare_gt_lt in Hyz. congruence. }
  destruct (filter_block _ (λ r, state (obs r) = e) _ Hconvex Hsorted)
    as (before & after & Hl & Hb).
  exists before, after. split_and!; try done.
  apply Forall_forall. intros r Hr Hre.
  assert (length (rows_of e (daily_df csv))
            = length (rows_of e before) + length (rows_of e (daily_df csv))
              + length (rows_of e after))%nat as Hlen.
    { rewrite Hl at 1. unfold rows_of.
      rewrite !filter_app, !length_app.
      rewrite (filter_all _ (filter _ (daily_df csv))); [lia|].
      apply Forall_forall. intros y Hy.
      by apply list_elem_of_filter in Hy as [? _]. }
    assert (length (rows_of e after) = 0)%nat as Hnil by lia.
    apply length_zero_iff_nil in Hnil.
    assert (r ∈ rows_of e after) as Hin.
    { unfold rows_of. by apply list_elem_of_filter. }
    rewrite Hnil in Hin. by apply elem_of_nil in Hin.
Qed.

(** * Further properties of the chain *)

(** ** [sort_values] *)

(** X1: [sort_values] keeps every row, once, and puts the frame in the
    order of (state, date). *)
Theorem sort_values_sorts {A} (key : A → string * Z) (df : list A) :
  sort_values key df ≡ₚ df ∧ StronglySorted (by_key key) (sort_values key df).
Proof. split; [apply sort_values_perm|apply sort_values_sorted]. Qed.

(** X2: the sort is stable: rows with the same state and date leave
    [sort_values] in the order in which they entered it. *)
Theorem sort_values_keeps_ties {A} (key : A → string * Z) (k : string * Z)
    (df : list A) :
  filter (λ x, key x = k) (sort_values key df) = filter (λ x, key x = k) df.
Proof. apply sort_values_stable. Qed.

(** X3: a frame that is in order already comes back as it is; so sorting
    twice is sorting once. *)
Theorem sort_values_idempotent {A} (key : A → string * Z) (df : list A) :
  (StronglySorted (by_key key) df → sort_values key df = df) ∧
  sort_values key (sort_values key df) = sort_values key df.
Proof.
  split; [apply sort_values_sorted_id|].
  apply sort_values_sorted_id, sort_values_sorted.
Qed.

(** ** [assign] and [groupby('state')[col].diff()] *)

(** X4: [assign] adds the two columns and nothing else: same rows, same
    order, same values in the columns that were there. *)
Theorem assign_keeps_frame (df : list row) :
  obs <$> assign df = df ∧ length (assign df) = length df.
Proof.
  pose proof (obs_assign df) as H. split; [done|].
  by rewrite <-H at 2; rewrite length_fmap.
Qed.

(** X5: the groups do not see each other, whatever the order of the frame:
    the rows of a state come out of [assign] as they would if the frame had
    the rows of that state only. *)
Theorem assign_one_state (e : string) (df : list row) :
  rows_of e (assign df) = assign (filter (λ r, state r = e) df).
Proof.
  rewrite rows_of_assign.
  set (l := filter (λ r, state r = e) df).
  assert (Forall (λ r, state r = e) l) as Hall.
  { apply Forall_forall. intros r Hr.
    by apply list_elem_of_filter in Hr as [? _]. }
  rewrite <-(filter_all (λ r, state r = e) l Hall) at 1.
  rewrite <-rows_of_assign. unfold rows_of. apply filter_all.
  apply Forall_forall. intros r Hr.
  apply (list_elem_of_fmap_2 obs) in Hr. rewrite obs_assign in Hr.
  rewrite Forall_forall in Hall. by apply Hall.
Qed.

Lemma new_cell_None prev v : new_cell prev v = None ↔ prev = None.
Proof. by destruct prev. Qed.

Lemma assign_from_missing m lc ld df i r :
  assign_from lc ld df !! i = Some r →
  new m r = None ↔
    match m with Cases => lc | Deaths => ld end !! state (obs r) = None ∧
    state (obs r) ∉ state <$> take i df.
Proof.
  revert lc ld i. induction df as [|x df IH]; intros lc ld i; [done|].
  destruct i as [|i]; csimpl.
  - intros [= <-]. rewrite elem_of_nil.
    destruct m; simpl; rewrite new_cell_None; tauto.
  - intros Hr. rewrite (IH _ _ _ Hr), elem_of_cons.
    destruct (decide (state x = state (obs r))) as [->|Hne].
    + destruct m; rewrite lookup_insert_eq; split; intros [? ?];
        try done; tauto.
    + destruct m; rewrite lookup_insert_ne by done; intuition congruence.
Qed.

(** X6: after [assign] a cell of a new column is missing on the first row
    of each state and nowhere else: the cell of row [i] is missing exactly
    when no row above it has its state. *)
Theorem assign_missing_iff_first (m : metric) (df : list row) (i : nat)
    (r : daily) :
  assign df !! i = Some r →
  new m r = None ↔ state (obs r) ∉ state <$> take i df.
Proof.
  rewrite assign_assign_from. intros Hr.
  rewrite (assign_from_missing m _ _ _ _ _ Hr).
  destruct m; rewrite lookup_empty; tauto.
Qed.

Lemma assign_missing_iff_first_witness :
  new Cases (Daily (Row 18322 "NY" 75 0) None None) = None ↔
  "NY" ∉ state <$> take 1 [Row 18322 "CA" 100 0; Row 18322 "NY" 75 0].
Proof.
  apply (assign_missing_iff_first Cases
           [Row 18322 "CA" 100 0; Row 18322 "NY" 75 0] 1).
  reflexivity.
Defined.

(** X7: in the result the two new columns are missing on the same rows. *)
Theorem new_columns_missing_together (csv : list Csv.row) :
  Forall (λ r, cases_new r = None ↔ deaths_new r = None) (daily_df csv).
Proof.
  unfold daily_df, reset_index, query. apply Forall_forall. intros r Hr.
  apply list_elem_of_filter in Hr as [_ Hr].
  apply list_elem_of_lookup in Hr as [i Hi].
  pose proof (assign_missing_iff_first Cases _ _ _ Hi) as Hc.
  pose proof (assign_missing_iff_first Deaths _ _ _ Hi) as Hd.
  simpl in Hc, Hd. tauto.
Qed.

(** ** The increments *)

(** X8: in the result, the increment of a row that follows another row of
    its state is the difference of their cumulative values, or 0 when that
    difference is negative. *)
Theorem next_row_increment (csv : list Csv.row) (e : string) (m : metric)
    (pre : list daily) (r1 r2 : daily) (post : list daily) :
  rows_of e (daily_df csv) = pre ++ r1 :: r2 :: post →
  new m r2 = Some (Z.max 0 (total m (obs r2) - total m (obs r1))).
Proof.
  intros Hrows.
  destruct (rows_of_daily_df_block e csv) as (early & late & H & _).
  rewrite Hrows, <-!app_assoc, app_assoc in H. simpl in H.
  exact (series_from_next m _ _ _ _ _ _ _ H).
Qed.

Lemma next_row_increment_witness :
  new Cases (Daily (Row 18323 "CA" 150 1) (Some 50) (Some 1))
  = Some (Z.max 0 (150 - 100)).
Proof.
  apply (next_row_increment ca_example "CA" Cases []
           (Daily (Row 18322 "CA" 100 0) None None)
           (Daily (Row 18323 "CA" 150 1) (Some 50) (Some 1))
           [Daily (Row 18324 "CA" 140 1) (Some 0) (Some 0);
            Daily (Row 18325 "CA" 200 2) (Some 60) (Some 1)]).
  reflexivity.
Defined.

Lemma series_from_sum_ge m pc pd s x l post :
  series_from pc pd s = x :: l ++ post →
  total m (obs (default x (last l))) - total m (obs x)
    ≤ sum_cells (new m <$> l).
Proof.
  revert pc pd s x. induction l as [|y l IH]; intros pc pd s x Hs.
  - simpl. lia.
  - pose proof (series_from_next m pc pd s [] x y (l ++ post) Hs) as Hy.
    apply (series_from_drop _ _ _ [x]) in Hs as (pc' & pd' & s' & Hs & _).
    specialize (IH _ _ _ _ Hs).
    rewrite fmap_cons. simpl sum_cells. rewrite Hy. simpl.
    rewrite last_cons. destruct (last l); simpl in *; lia.
Qed.

(** X9: clipping can only add.  Along any rows of a state that follow each
    other in the result, the increments after the first row add up to at
    least the cumulative value of the last row less that of the first,
    whether or not the feed was corrected in between. *)
Theorem run_sum_at_least (csv : list Csv.row) (e : string) (m : metric)
    (pre : list daily) (x : daily) (l post : list daily) :
  rows_of e (daily_df csv) = pre ++ x :: l ++ post →
  total m (obs (default x (last l))) - total m (obs x)
    ≤ sum_cells (new m <$> l).
Proof.
  intros Hrows.
  destruct (rows_of_daily_df_block e csv) as (early & late & H & _).
  rewrite Hrows in H. rewrite <-!app_assoc in H. simpl in H.
  rewrite <-!app_assoc in H. rewrite app_assoc in H.
  apply series_from_drop in H as (pc & pd & s & H & _).
  exact (series_from_sum_ge m _ _ _ _ _ _ H).
Qed.

Lemma run_sum_at_least_witness :
  200 - 100 ≤ sum_cells [Some 50; Some 0; Some 60].
Proof.
  apply (run_sum_at_least ca_example "CA" Cases []
           (Daily (Row 18322 "CA" 100 0) None None)
           [Daily (Row 18323 "CA" 150 1) (Some 50) (Some 1);
            Daily (Row 18324 "CA" 140 1) (Some 0) (Some 0);
            Daily (Row 18325 "CA" 200 2) (Some 60) (Some 1)] []).
  reflexivity.
Defined.

Lemma assign_from_at_most m lc ld df :
  map_Forall (λ _ p, 0 ≤ p) lc → map_Forall (λ _ p, 0 ≤ p) ld →
  Forall (λ r, 0 ≤ cases_total r ∧ 0 ≤ deaths_total r) df →
  Forall (λ r, ∀ v, new m r = Some v → v ≤ total m (obs r))
         (assign_from lc ld df).
Proof.
  intros Hlc Hld Hdf. revert lc ld Hlc Hld.
  induction Hdf as [|x df [Hc Hd] _ IH]; intros lc ld Hlc Hld; simpl.
  - constructor.
  - constructor; [|apply IH; by apply map_Forall_insert_2].
    intros v. destruct m; simpl; unfold new_cell.
    + destruct (lc !! state x) as [p|] eqn:E; simpl; [|done].
      apply Hlc in E. intros [= <-]. lia.
    + destruct (ld !! state x) as [p|] eqn:E; simpl; [|done].
      apply Hld in E. intros [= <-]. lia.
Qed.

(** X10: when no count of the feed is negative, no increment is larger
    than the cumulative value beside it. *)
Theorem increment_at_most_total (csv : list Csv.row) (m : metric) :
  Forall (λ x, 0 ≤ Csv.cases x ∧ 0 ≤ Csv.deaths x) csv →
  Forall (λ r, ∀ v, new m r = Some v → v ≤ total m (obs r)) (daily_df csv).
Proof.
  intros Hcsv. unfold daily_df, reset_index, query.
  rewrite assign_assign_from. apply Forall_forall. intros r Hr.
  apply list_elem_of_filter in Hr as [_ Hr].
  assert (Forall (λ r, 0 ≤ cases_total r ∧ 0 ≤ deaths_total r)
            (rename (sort_values csv_key csv))) as Hdf.
  { unfold rename. apply Forall_fmap. rewrite sort_values_perm. exact Hcsv. }
  pose proof (assign_from_at_most m ∅ ∅ _ (map_Forall_empty _)
                (map_Forall_empty _) Hdf) as Hall.
  rewrite Forall_forall in Hall. by apply Hall.
Qed.

Lemma increment_at_most_total_witness :
  Forall (λ r, ∀ v, new Cases r = Some v → v ≤ total Cases (obs r))
         (daily_df ca_example).
Proof.
  apply (increment_at_most_total ca_example Cases).
  repeat constructor; by vm_compute.
Defined.

(** ** The table as a whole *)

(** X11: no row of the result is dated outside 2020, and the result is
    empty exactly when the feed has no row of 2020. *)
Theorem result_within_2020 (csv : list Csv.row) :
  Forall (λ r, in_2020 (date (obs r))) (daily_df csv) ∧
  (daily_df csv = [] ↔ Forall (λ x, ¬ in_2020 (Csv.date x)) csv).
Proof.
  split.
  - apply Forall_forall. intros r Hr. unfold daily_df, reset_index, query in Hr.
    by apply list_elem_of_filter in Hr as [? _].
  - rewrite <-(sort_values_perm csv_key csv) at 2. split.
    + intros Hnil. apply Forall_forall. intros x Hx Hin.
      assert (x ∈ filter (λ r, in_2020 (Csv.date r)) (sort_values csv_key csv))
        as Hf by (by apply list_elem_of_filter).
      apply (list_elem_of_fmap_2 rename_row) in Hf.
      fold (rename (filter (λ r, in_2020 (Csv.date r))
                      (sort_values csv_key csv))) in Hf.
      rewrite <-obs_daily_df, Hnil in Hf. by apply elem_of_nil in Hf.
    + intros Hall. apply (fmap_nil_inv obs). rewrite obs_daily_df.
      by rewrite (filter_none _ _ Hall).
Qed.

(** X12: the notebook says that the table has a row of its own for each
    date and state.  So it has, when the feed has: no two rows of the
    result share state and date if no two rows of the feed do. *)
Theorem result_keys_unique (csv : list Csv.row) :
  NoDup (csv_key <$> csv) →
  NoDup (row_key ∘ obs <$> daily_df csv).
Proof.
  intros Hnd. rewrite list_fmap_compose, obs_daily_df. unfold rename.
  rewrite <-list_fmap_compose.
  apply (sublist_NoDup _ (csv_key <$> sort_values csv_key csv)).
  - by rewrite sort_values_perm.
  - apply (fmap_sublist csv_key), sublist_filter.
Qed.

Lemma result_keys_unique_witness :
  NoDup (row_key ∘ obs <$> daily_df mixed_example).
Proof.
  apply (result_keys_unique mixed_example).
  apply (bool_decide_unpack _). by vm_compute.
Defined.

(** X13: the order of the lines of the feed is of no account: two feeds
    with the same rows, no two of them with the same state and date, give
    the same table. *)
Theorem result_of_permuted_feed (csv1 csv2 : list Csv.row) :
  NoDup (csv_key <$> csv1) → csv1 ≡ₚ csv2 → daily_df csv1 = daily_df csv2.
Proof.
  intros Hnd Hp. unfold daily_df.
  by rewrite (sort_values_perm_eq csv_key _ _ Hnd Hp).
Qed.

Lemma result_of_permuted_feed_witness :
  daily_df ca_example = daily_df (reverse ca_example).
Proof.
  apply (result_of_permuted_feed ca_example (reverse ca_example)).
  - apply (bool_decide_unpack _). by vm_compute.
  - by rewrite reverse_Permutation.
Defined.

Lemma rename_sorted csv :
  StronglySorted (by_key row_key) (rename (sort_values csv_key csv)).
Proof.
  unfold rename. eapply StronglySorted_fmap; [|apply sort_values_sorted].
  by intros x y.
Qed.

Lemma assign_from_late lc1 ld1 lc2 ld2 df :
  StronglySorted (by_key row_key) df →
  (∀ e, (lc1 !! e = lc2 !! e ∧ ld1 !! e = ld2 !! e) ∨
        Forall (λ r, state r = e → date_2020_12_31 < date r) df) →
  query (assign_from lc1 ld1 (filter (λ r, date r ≤ date_2020_12_31) df))
  = query (assign_from lc2 ld2 df).
Proof.
  intros Hs. revert lc1 ld1 lc2 ld2.
  induction Hs as [|x df Hs IH Hx]; intros lc1 ld1 lc2 ld2 Hmaps; [done|].
  rewrite filter_cons. unfold query in *. simpl.
  destruct (decide (date x ≤ date_2020_12_31)) as [Hle|Hgt]; simpl.
  - destruct (Hmaps (state x)) as [[-> ->]|Hall].
    2:{ apply Forall_cons in Hall as [Hlate _]. specialize (Hlate eq_refl). lia. }
    rewrite !filter_cons. simpl.
    rewrite (IH (<[state x:=cases_total x]> lc1) (<[state x:=deaths_total x]> ld1)
                (<[state x:=cases_total x]> lc2) (<[state x:=deaths_total x]> ld2));
      [done|].
    intros e. destruct (decide (state x = e)) as [<-|Hne].
    + left. by rewrite !lookup_insert_eq.
    + rewrite !lookup_insert_ne by done.
      destruct (Hmaps e) as [?|Hall]; [by left|right].
      by apply Forall_cons in Hall as [_ ?].
  - rewrite (filter_cons_False _ (Daily x _ _)).
    2:{ unfold in_2020. simpl. lia. }
    apply IH. intros e. destruct (decide (state x = e)) as [<-|Hne].
    + right. eapply Forall_impl; [exact Hx|]. simpl. intros r Hxr Hst.
      unfold by_key, key_le, row_key in Hxr. rewrite Hst in Hxr.
      apply key_leb_same_state in Hxr. lia.
    + rewrite !lookup_insert_ne by done.
      destruct (Hmaps e) as [?|Hall]; [by left|right].
      by apply Forall_cons in Hall as [_ ?].
Qed.

(** X14: the rows of the feed dated after 2020 have no part in the table:
    with or without them the result is the same.  (Not so the rows dated
    before 2020: the first row of 2020 is measured against them.) *)
Theorem rows_after_2020_no_effect (csv : list Csv.row) :
  daily_df (filter (λ x, Csv.date x ≤ date_2020_12_31) csv) = daily_df csv.
Proof.
  unfold daily_df, reset_index.
  rewrite <-filter_sort_values, !assign_assign_from. unfold rename.
  rewrite (fmap_filter rename_row (λ r, date r ≤ date_2020_12_31)).
  apply assign_from_late; [apply rename_sorted|]. intros e. by left.
Qed.

Lemma query_fmap (f : daily → daily) (df : list daily) :
  (∀ r, date (obs (f r)) = date (obs r)) →
  query (f <$> df) = f <$> query df.
Proof.
  intros Hf. unfold query. induction df as [|r df IH]; [done|].
  rewrite fmap_cons, !filter_cons, IH, Hf.
  by destruct (decide (in_2020 (date (obs r)))).
Qed.

Lemma sort_values_shift m k csv :
  sort_values csv_key (shift_csv m k <$> csv)
  = shift_csv m k <$> sort_values csv_key csv.
Proof. apply sort_values_fmap. by destruct m. Qed.

Lemma new_cell_shift k prev v :
  new_cell ((λ p, p + k) <$> prev) (v + k) = new_cell prev v.
Proof.
  destruct prev as [p|]; [|done]. unfold new_cell. simpl. do 2 f_equal. lia.
Qed.

Lemma assign_from_shift m k lc ld df :
  assign_from (match m with Cases => (λ p, p + k) <$> lc | Deaths => lc end)
              (match m with Cases => ld | Deaths => (λ p, p + k) <$> ld end)
              (shift_row m k <$> df)
  = shift_daily m k <$> assign_from lc ld df.
Proof.
  revert lc ld. induction df as [|r df IH]; intros lc ld; [done|].
  rewrite fmap_cons. destruct m; csimpl.
  - replace (<[state r:=cases_total r + k]> ((λ p, p + k) <$> lc))
      with ((λ p, p + k) <$> <[state r:=cases_total r]> lc)
      by (by rewrite fmap_insert).
    rewrite (IH (<[state r:=cases_total r]> lc)).
    by rewrite lookup_fmap, new_cell_shift.
  - replace (<[state r:=deaths_total r + k]> ((λ p, p + k) <$> ld))
      with ((λ p, p + k) <$> <[state r:=deaths_total r]> ld)
      by (by rewrite fmap_insert).
    rewrite (IH _ (<[state r:=deaths_total r]> ld)).
    by rewrite lookup_fmap, new_cell_shift.
Qed.

(** X15: the increments hang on differences only.  With a constant added
    to every cumulative value of one metric, the table has that constant
    added in the cumulative column and is the same in the new columns. *)
Theorem result_of_shifted_feed (m : metric) (k : Z) (csv : list Csv.row) :
  daily_df (shift_csv m k <$> csv) = shift_daily m k <$> daily_df csv.
Proof.
  unfold daily_df, reset_index, rename.
  rewrite sort_values_shift, <-list_fmap_compose, !assign_assign_from.
  rewrite (list_fmap_ext (rename_row ∘ shift_csv m k) (shift_row m k ∘ rename_row))
    by (by intros []; destruct m).
  rewrite list_fmap_compose.
  pose proof (assign_from_shift m k ∅ ∅) as H. destruct m;
    rewrite fmap_empty in H; rewrite H; apply query_fmap; by intros [[] ? ?].
Qed.

(** ** The index: [read_csv], [assign] by label, [reset_index] *)

Lemma groupby_diff_from_fmap {A B} (f : A → B) (grp : B → string)
    (col : B → Z) (last : gmap string Z) (df : list A) :
  groupby_diff_from (grp ∘ f) (col ∘ f) last df
  = groupby_diff_from grp col last (f <$> df).
Proof.
  revert last. induction df as [|x df IH]; intros last; csimpl; [done|].
  by rewrite IH.
Qed.

Lemma length_groupby_diff_from {A} (grp : A → string) (col : A → Z)
    (last : gmap string Z) (df : list A) :
  length (groupby_diff_from grp col last df) = length df.
Proof.
  revert last. induction df as [|x df IH]; intros last; simpl; [done|].
  by rewrite IH.
Qed.

Lemma at_label_clip lower s i :
  Labelled.at_label (Labelled.clip lower s) i
  = clip_cell lower (Labelled.at_label s i).
Proof.
  induction s as [|[j c] s IH]; csimpl; [done|].
  by destruct (decide (j = i)).
Qed.

(** Under labels that are all different, the cell found by label is the
    cell at the position of the label. *)
Lemma at_label_lookup (ls : list nat) (cs : list (option Z)) (k i : nat) :
  NoDup ls → ls !! k = Some i →
  Labelled.at_label (zip ls cs) i = default None (cs !! k).
Proof.
  intros Hnd. revert cs k.
  induction Hnd as [|j ls Hj Hnd IH]; intros cs k Hk; [done|].
  destruct cs as [|c cs]; [done|]. destruct k as [|k]; simpl in *.
  - injection Hk as ->. by rewrite decide_True.
  - rewrite decide_False; [by apply IH|].
    intros ->. apply Hj. by eapply list_elem_of_lookup_2.
Qed.

Lemma labelled_assign (df : list (nat * row)) :
  NoDup (df.*1) →
  (Labelled.assign df).*1 = df.*1 ∧ (Labelled.assign df).*2 = assign (df.*2).
Proof.
  intros Hnd. unfold Labelled.assign, assign. split.
  { rewrite <-list_fmap_compose. by apply list_fmap_ext. }
  apply list_eq. intros k.
  rewrite <-list_fmap_compose, list_lookup_fmap, lookup_zip_with.
  rewrite list_lookup_fmap, lookup_zip_with. unfold clip, groupby_diff.
  rewrite !list_lookup_fmap.
  destruct (df !! k) as [[i r]|] eqn:Hk; simpl; [|done].
  assert (df.*1 !! k = Some i) as Hi by (by rewrite list_lookup_fmap, Hk).
  rewrite !at_label_clip. unfold Labelled.groupby_diff.
  rewrite !(at_label_lookup _ _ k i Hnd Hi).
  unfold groupby_diff.
  rewrite (groupby_diff_from_fmap snd state cases_total),
          (groupby_diff_from_fmap snd state deaths_total).
  assert (k < length df)%nat as Hlt by (by eapply lookup_lt_Some).
  destruct (lookup_lt_is_Some_2 (groupby_diff_from state cases_total ∅ (df.*2)) k)
    as [c Hc]; [by rewrite length_groupby_diff_from, length_fmap|].
  destruct (lookup_lt_is_Some_2 (groupby_diff_from state deaths_total ∅ (df.*2)) k)
    as [d Hd]; [by rewrite length_groupby_diff_from, length_fmap|].
  by rewrite Hc, Hd.
Qed.

Lemma labelled_sorted (feed : list Csv.row) :
  (Labelled.sort_values (Labelled.read_csv feed)).*2 = sort_values csv_key feed ∧
  Labelled.sort_values (Labelled.read_csv feed) ≡ₚ Labelled.read_csv feed ∧
  NoDup ((Labelled.sort_values (Labelled.read_csv feed)).*1).
Proof.
  unfold Labelled.sort_values, Labelled.read_csv. split_and!.
  - rewrite <-(sort_values_fmap (csv_key ∘ snd) csv_key snd) by done.
    by rewrite snd_zip by (by rewrite length_seq).
  - apply sort_values_perm.
  - rewrite sort_values_perm, fst_zip by (by rewrite length_seq).
    apply NoDup_seq.
Qed.

Lemma labelled_before_reset (feed : list Csv.row) :
  (Labelled.before_reset feed).*2 = daily_df feed.
Proof.
  destruct (labelled_sorted feed) as (Hrows & _ & Hnd).
  unfold Labelled.before_reset, Labelled.query, daily_df, reset_index, query.
  rewrite (fmap_filter snd (λ r, in_2020 (date (obs r)))).
  f_equal.
  assert (NoDup ((Labelled.rename
            (Labelled.sort_values (Labelled.read_csv feed))).*1)) as Hnd'.
  { unfold Labelled.rename. rewrite <-list_fmap_compose.
    by rewrite (list_fmap_ext (fst ∘ prod_map id rename_row) fst)
      by (by intros []). }
  rewrite (proj2 (labelled_assign _ Hnd')). f_equal.
  unfold Labelled.rename, rename. rewrite <-Hrows, <-!list_fmap_compose.
  apply list_fmap_ext. by intros [].
Qed.

(** X17: lining the new columns up by label, as pandas does, gives the
    table that lining them up by position gives. *)
Theorem labelled_chain_rows (feed : list Csv.row) :
  (Labelled.daily_df feed).*2 = daily_df feed.
Proof.
  unfold Labelled.daily_df, Labelled.reset_index.
  rewrite snd_zip by (by rewrite length_seq, length_fmap).
  apply labelled_before_reset.
Qed.

(** X19: up to [reset_index] a row keeps the label [read_csv] gave it, the
    number of its line in the feed: sorting and cutting leave the labels
    out of order and with gaps. *)
Theorem labels_before_reset (feed : list Csv.row) :
  Forall (λ p, ∃ x, feed !! p.1 = Some x ∧ obs p.2 = rename_row x)
         (Labelled.before_reset feed).
Proof.
  apply Forall_forall. intros [i r] Hp.
  unfold Labelled.before_reset, Labelled.query in Hp.
  apply list_elem_of_filter in Hp as [_ Hp].
  unfold Labelled.assign in Hp.
  apply list_elem_of_fmap in Hp as ([j o] & [= -> ->] & Hp).
  unfold Labelled.rename in Hp.
  apply list_elem_of_fmap in Hp as ([j' x] & [= -> ->] & Hp).
  destruct (labelled_sorted feed) as (_ & Hperm & _).
  rewrite Hperm in Hp. unfold Labelled.read_csv in Hp.
  apply list_elem_of_lookup in Hp as [k Hk].
  apply lookup_zip_with_Some in Hk as (j'' & x' & [= <- <-] & Hj & Hx).
  apply lookup_seq in Hj as [-> _]. by exists x.
Qed.

(** ** [query] and the calendar *)

(** X20: the two bounds of [query] are the first and the last day of the
    year 2020: a calendar date is kept exactly when its year is 2020. *)
Theorem in_2020_iff_year (y m d : Z) :
  1 ≤ m ≤ 12 → 1 ≤ d ≤ 31 →
  in_2020 (days_from_civil y m d) ↔ y = 2020.
Proof.
  intros Hm Hd.
  unfold in_2020, date_2020_01_01, date_2020_12_31, days_from_civil.
  assert (m = 1 ∨ m = 2 ∨ m = 3 ∨ m = 4 ∨ m = 5 ∨ m = 6 ∨ m = 7 ∨ m = 8 ∨
          m = 9 ∨ m = 10 ∨ m = 11 ∨ m = 12) as Hcases by lia.
  destruct_or!; subst m; simpl; Z.to_euclidean_division_equations; lia.
Qed.

Lemma in_2020_iff_year_witness :
  in_2020 (days_from_civil 2020 2 29) ↔ 2020 = 2020.
Proof. apply (in_2020_iff_year 2020 2 29); lia. Defined.

(** ** [daily_df.head()] *)

Lemma daily_df_by_row_le csv :
  StronglySorted (λ r1 r2, row_le (obs r1) (obs r2)) (daily_df csv).
Proof.
  unfold daily_df, reset_index, query. apply StronglySorted_filter.
  apply (StronglySorted_through obs row_le). rewrite obs_assign.
  unfold rename. eapply StronglySorted_fmap; [|apply sort_values_sorted].
  intros x y Hxy. by apply key_leb_row_le.
Qed.

Lemma daily_df_row_origin csv r :
  r ∈ daily_df csv →
  ∃ x, x ∈ csv ∧ in_2020 (Csv.date x) ∧ obs r = rename_row x.
Proof.
  intros Hr. apply (list_elem_of_fmap_2 obs) in Hr.
  rewrite obs_daily_df in Hr. unfold rename in Hr.
  apply list_elem_of_fmap in Hr as (x & -> & Hx).
  apply list_elem_of_filter in Hx as [Hin Hx].
  rewrite sort_values_perm in Hx. by exists x.
Qed.

(** X21: [head] shows the table from its top, and the top of the table is
    the state that comes first in the order of strings: when that state
    has [n] rows in 2020 or more, the [n] rows shown are its first [n]. *)
Theorem head_shows_first_state (csv : list Csv.row) (e : string) (n : nat) :
  Forall (λ x, in_2020 (Csv.date x) → String.compare e (Csv.state x) ≠ Gt)
         csv →
  (n ≤ length (rows_of e (daily_df csv)))%nat →
  df_head n (daily_df csv) = take n (rows_of e (daily_df csv)).
Proof.
  intros Hleast Hn. unfold df_head.
  assert (∀ x y z : daily,
            row_le (obs x) (obs y) → row_le (obs y) (obs z) →
            state (obs x) = e → state (obs z) = e → state (obs y) = e)
    as Hconvex.
  { intros x y z Hxy Hyz Hx Hz.
    destruct Hxy as [Hxy|[Hxy _]]; [|congruence].
    destruct Hyz as [Hyz|[Hyz _]]; [|congruence].
    rewrite Hx in Hxy. rewrite Hz in Hyz.
    apply string_compare_gt_lt in Hyz. congruence. }
  pose proof (daily_df_by_row_le csv) as Hsorted.
  destruct (filter_block _ (λ r, state (obs r) = e) _ Hconvex Hsorted)
    as (before & after & Hl & Hb).
  fold (rows_of e (daily_df csv)) in Hl.
  destruct (rows_of e (daily_df csv)) as [|r rows] eqn:Hrows.
  { simpl in Hn. assert (n = 0)%nat as -> by lia. by rewrite !take_0. }
  destruct before as [|b before].
  { simpl in Hl. rewrite Hl at 1.
    change (r :: rows ++ after) with ((r :: rows) ++ after).
    by apply take_app_le. }
  exfalso. apply Forall_cons in Hb as [Hbe _].
  assert (b ∈ daily_df csv) as Hin by (rewrite Hl; by left).
  apply daily_df_row_origin in Hin as (x & Hx & Hx2020 & Hobs).
  rewrite Forall_forall in Hleast. specialize (Hleast x Hx Hx2020).
  assert (state (obs r) = e) as Hre.
  { assert (r ∈ rows_of e (daily_df csv)) as Hr by (rewrite Hrows; by left).
    unfold rows_of in Hr. by apply list_elem_of_filter in Hr as [? _]. }
  rewrite Hl in Hsorted. simpl in Hsorted.
  apply StronglySorted_cons in Hsorted as [Hall _].
  rewrite Forall_forall in Hall.
  assert (row_le (obs b) (obs r)) as Hbr.
  { apply Hall. apply elem_of_app. right. by left. }
  unfold row_le in Hbr. rewrite Hobs in Hbr, Hbe. simpl in Hbr, Hbe.
  rewrite Hre in Hbr. destruct Hbr as [Hlt|[Heq _]]; [|done].
  apply string_compare_gt_lt in Hlt. done.
Qed.

Lemma head_shows_first_state_witness :
  df_head 2 (daily_df mixed_example)
  = take 2 (rows_of "CA" (daily_df mixed_example)).
Proof.
  apply (head_shows_first_state mixed_example "CA" 2).
  - repeat constructor; by vm_compute.
  - vm_compute. lia.
Defined.

(** ** One state, and the two metrics *)

Lemma assign_single_state e df :
  Forall (λ r, state r = e) df → assign df = series_from None None df.
Proof.
  intros Hall. rewrite <-(filter_all _ df Hall) at 2.
  rewrite <-rows_of_assign. unfold rows_of. symmetry. apply filter_all.
  apply Forall_forall. intros r Hr.
  apply (list_elem_of_fmap_2 obs) in Hr. rewrite obs_assign in Hr.
  rewrite Forall_forall in Hall. by apply Hall.
Qed.

(** X22: the part of the table that belongs to a state is the table of the
    feed cut down to that state. *)
Theorem state_part_of_result (csv : list Csv.row) (e : string) :
  rows_of e (daily_df csv) = daily_df (csv_of e csv).
Proof.
  rewrite rows_of_daily_df. unfold daily_df, reset_index. f_equal.
  symmetry. apply (assign_single_state e). unfold rename.
  apply Forall_fmap. rewrite sort_values_perm. apply Forall_forall.
  intros x Hx. unfold csv_of in Hx. by apply list_elem_of_filter in Hx as [? _].
Qed.

(** X23: cases and deaths go through the same steps: with the two columns
    of the feed in each other's place, the new cases are what the new
    deaths were and the new deaths what the new cases were, row by row. *)
Theorem result_of_swapped_feed (csv : list Csv.row) :
  new Cases <$> daily_df (swap_csv <$> csv) = new Deaths <$> daily_df csv ∧
  new Deaths <$> daily_df (swap_csv <$> csv) = new Cases <$> daily_df csv.
Proof.
  rewrite daily_df_swap, <-!list_fmap_compose. by split.
Qed.
